(** * hdlConvertor.hdlAst._typeDefs: the type-definition nodes of the HDL AST

    A shallow embedding of [src/hdlConvertor/hdlAst/_typeDefs.py] and the
    properties the specification states about it.

    Python objects are mutable and are handled by reference, so the model has
    a store: every list, dict and node lives at an address of a heap, and a
    Python value is either immutable data or a reference into that heap.
    Code that allocates or mutates is written in a state-and-exception monad
    over the heap. *)

From Stdlib Require Import ZArith Lia Bool.
From stdpp Require Import base list strings.

Open Scope Z_scope.

(** ** Python values *)

Definition addr := nat.

#[warnings="-register-all"]
Inductive pyval : Type :=
| PyNone
| PyBool (b : bool)
| PyInt (z : Z)
| PyStr (s : string)
| PyTuple (vs : list pyval)
| PyRef (a : addr).
Arguments PyRef a%_nat.

(** [x is not None] *)
Definition is_not_None (v : pyval) : bool :=
  match v with PyNone => false | _ => true end.

(** A member of [__slots__] that [__init__] does not assign stays empty until
    somebody assigns it; reading an empty slot raises [AttributeError]. *)
Definition slot (A : Type) : Type := option A.

Inductive exn : Type :=
| AttributeError (attr : string)
| TypeError.

Inductive result (A : Type) : Type :=
| Ok (a : A)
| Raise (e : exn).
Arguments Ok {A} a.
Arguments Raise {A} e.

Definition read_slot {A : Type} (attr : string) (s : slot A) : result A :=
  match s with
  | Some v => Ok v
  | None => Raise (AttributeError attr)
  end.

(** ** The imported base classes

    [iHdlObj] and [iHdlObjWithName] come from [hdlConvertor.hdlAst._bases],
    which is outside this file.  Every [__init__] here starts with
    [super(...).__init__()], a call without arguments, so all the file needs
    from a base class is the state that call leaves behind in the slots the
    base class owns.  That state is a parameter of the development.

    Three classes list ["name"] in their own [__slots__]; the slot is then
    theirs, and the base initialiser is the only code that may have assigned
    it: [name__init__] is what it leaves there. *)
Class Bases : Type := {
  iHdlObj : Type;
  iHdlObj__init__ : iHdlObj;
  iHdlObjWithName : Type;
  iHdlObjWithName__init__ : iHdlObjWithName;
  name__init__ : slot pyval
}.

(** Python's built-in [hash].  [HdlTypeBitsDef.__hash__] calls it on a tuple
    of two ints and two bools; which number it returns is the interpreter's
    business, so it is a parameter as well. *)
Class Builtins : Type := {
  hash : pyval -> Z
}.

Section TypeDefs.
Context {bases : Bases} {builtins : Builtins}.

(** ** The node classes

    One record per class, one field per slot.  A field keeps the name of its
    slot; where two classes use the same slot name, or the name is taken in
    Rocq ([left], [right]), the class name is put in front.  A slot that the
    source annotates ([# type: int], [# type: bool]) has that type; the
    others hold any Python value. *)

Record HdlSimpleRange : Type := mkHdlSimpleRange {
  HdlSimpleRange_base : iHdlObj;
  HdlSimpleRange_left : pyval;
  dir : pyval;
  HdlSimpleRange_right : pyval
}.

Record HdlRange : Type := mkHdlRange {
  HdlRange_base : iHdlObj;
  HdlRange_subtype : pyval;
  HdlRange_range : pyval;
  attribute : pyval
}.

Record HdlSubtype : Type := mkHdlSubtype {
  HdlSubtype_base : iHdlObj;
  parent_type : pyval;
  constraint : pyval
}.

Record HdlConstraint : Type := mkHdlConstraint {
  HdlConstraint_base : iHdlObj;
  HdlConstraint_range : pyval;
  HdlConstraint_indexes : pyval;
  element : pyval;
  field_cons : pyval
}.

Record HdlTypeDec : Type := mkHdlTypeDec {
  HdlTypeDec_base : iHdlObjWithName;
  HdlTypeDec_subtype : pyval;
  ids : pyval;
  base_type : pyval;
  isUnion : bool;
  HdlTypeDec_indexes : pyval;
  elem_type : pyval;
  fields : pyval
}.

Record HdlTypeBitsDef : Type := mkHdlTypeBitsDef {
  HdlTypeBitsDef_base : iHdlObjWithName;
  HdlTypeBitsDef_name : slot pyval;
  msb : Z;
  lsb : Z;
  signed : bool;
  is_bigendian : bool;
  states : Z
}.

Record HdlClassDef : Type := mkHdlClassDef {
  HdlClassDef_base : iHdlObjWithName;
  HdlClassDef_name : slot pyval;
  parents : pyval;
  is_virtual : bool;
  is_static : bool;
  is_struct : bool;
  is_union : bool;
  is_interface : slot bool;
  private : pyval;
  public : pyval;
  protected : pyval
}.

Record HdlEnumDef : Type := mkHdlEnumDef {
  HdlEnumDef_base : iHdlObjWithName;
  HdlEnumDef_name : slot pyval;
  values : pyval
}.

(** ** The heap *)

(** A dict is kept in insertion order; its keys here are identifiers and
    field names. *)
Inductive hobj : Type :=
| OList (items : list pyval)
| ODict (items : list (string * pyval))
| OHdlSimpleRange (o : HdlSimpleRange)
| OHdlRange (o : HdlRange)
| OHdlSubtype (o : HdlSubtype)
| OHdlConstraint (o : HdlConstraint)
| OHdlTypeDec (o : HdlTypeDec)
| OHdlTypeBitsDef (o : HdlTypeBitsDef)
| OHdlClassDef (o : HdlClassDef)
| OHdlEnumDef (o : HdlEnumDef).

Local Abbreviation heap := (list hobj) (only parsing).

(** What a reference points to; nothing for a value that is no reference. *)
Definition deref (h : heap) (v : pyval) : option hobj :=
  match v with
  | PyRef a => h !! a
  | _ => None
  end.

(** ** The monad of Python code: a heap is threaded, an exception ends the run *)

Definition M (A : Type) : Type := heap -> result (A * heap).

Definition ret {A : Type} (a : A) : M A := fun h => Ok (a, h).

Definition bind {A B : Type} (m : M A) (k : A -> M B) : M B :=
  fun h =>
    match m h with
    | Ok (a, h') => k a h'
    | Raise e => Raise e
    end.

Notation "'let*' x := m 'in' k" := (bind m (fun x => k))
  (at level 10, x name, m at level 100, k at level 200, only parsing).

(** A new object gets the next free address. *)
Definition alloc (o : hobj) : M pyval :=
  fun h => Ok (PyRef (length h), h ++ [o]).

(** [Cls(args)]: run [__init__], the result is a reference to the new node.
    The node is stored once [__init__] is through; Python code cannot see
    addresses, so the order in which a node and its containers get theirs
    does not matter. *)
Definition construct {T : Type} (inj : T -> hobj) (init : M T) : M pyval :=
  let* self := init in alloc (inj self).

(** ** Lists, dicts and attributes *)

(** [r.append(v)] *)
Definition list_append (r v : pyval) : M unit :=
  fun h =>
    match r, deref h r with
    | PyRef a, Some (OList items) => Ok (tt, <[a := OList (items ++ [v])]> h)
    | _, _ => Raise (AttributeError "append")
    end.

(** [d[k] = v] on the items of a dict: an old key keeps its place, a new
    key goes to the end. *)
Fixpoint dict_set (k : string) (v : pyval) (items : list (string * pyval))
    : list (string * pyval) :=
  match items with
  | [] => [(k, v)]
  | (k', v') :: rest =>
      if String.eqb k k' then (k, v) :: rest else (k', v') :: dict_set k v rest
  end.

(** [r[k] = v] *)
Definition setitem (r : pyval) (k : string) (v : pyval) : M unit :=
  fun h =>
    match r, deref h r with
    | PyRef a, Some (ODict items) => Ok (tt, <[a := ODict (dict_set k v items)]> h)
    | _, _ => Raise TypeError
    end.

(** The items of the list, or of the dict, that a value refers to. *)
Definition list_items (h : heap) (r : pyval) : option (list pyval) :=
  match deref h r with Some (OList items) => Some items | _ => None end.

Definition dict_items (h : heap) (r : pyval) : option (list (string * pyval)) :=
  match deref h r with Some (ODict items) => Some items | _ => None end.

Definition as_HdlRange (o : hobj) : option HdlRange :=
  match o with OHdlRange x => Some x | _ => None end.
Definition as_HdlConstraint (o : hobj) : option HdlConstraint :=
  match o with OHdlConstraint x => Some x | _ => None end.
Definition as_HdlTypeDec (o : hobj) : option HdlTypeDec :=
  match o with OHdlTypeDec x => Some x | _ => None end.
Definition as_HdlTypeBitsDef (o : hobj) : option HdlTypeBitsDef :=
  match o with OHdlTypeBitsDef x => Some x | _ => None end.
Definition as_HdlClassDef (o : hobj) : option HdlClassDef :=
  match o with OHdlClassDef x => Some x | _ => None end.
Definition as_HdlEnumDef (o : hobj) : option HdlEnumDef :=
  match o with OHdlEnumDef x => Some x | _ => None end.

(** The node of class [T] that a value refers to. *)
Definition node {T : Type} (cast : hobj -> option T) (h : heap) (r : pyval)
    : option T :=
  deref h r ≫= cast.

(** [r.attr], for a slot that [__init__] assigns. *)
Definition getattr {T A : Type} (cast : hobj -> option T) (proj : T -> A)
    (attr : string) (r : pyval) : M A :=
  fun h =>
    match node cast h r with
    | Some x => Ok (proj x, h)
    | None => Raise (AttributeError attr)
    end.

(** [r.attr], for a slot that may be empty. *)
Definition getattr_slot {T A : Type} (cast : hobj -> option T)
    (proj : T -> slot A) (attr : string) (r : pyval) : M A :=
  fun h =>
    match node cast h r with
    | Some x =>
        match read_slot attr (proj x) with
        | Ok v => Ok (v, h)
        | Raise e => Raise e
        end
    | None => Raise (AttributeError attr)
    end.

(** [r.attr = v], given as the update [upd] of the node's record. *)
Definition setattr {T : Type} (cast : hobj -> option T) (inj : T -> hobj)
    (upd : T -> T) (attr : string) (r : pyval) : M unit :=
  fun h =>
    match r, node cast h r with
    | PyRef a, Some x => Ok (tt, <[a := inj (upd x)]> h)
    | _, _ => Raise (AttributeError attr)
    end.

(** ** The initialisers *)

Definition HdlSimpleRange__init__ : M HdlSimpleRange :=
  ret {| HdlSimpleRange_base := iHdlObj__init__;
         HdlSimpleRange_left := PyNone;
         dir := PyNone;
         HdlSimpleRange_right := PyNone |}.

(** An argument that the caller leaves out is [None] here and takes the
    default of the signature. *)
Definition HdlRange__init__ (subtype rng attribute0 : option pyval) : M HdlRange :=
  ret {| HdlRange_base := iHdlObj__init__;
         HdlRange_subtype := default PyNone subtype;
         HdlRange_range := default PyNone rng;
         attribute := default PyNone attribute0 |}.

Definition HdlSubtype__init__ (parent_type0 constraint0 : option pyval)
    : M HdlSubtype :=
  ret {| HdlSubtype_base := iHdlObj__init__;
         parent_type := default PyNone parent_type0;
         constraint := default PyNone constraint0 |}.

Definition HdlConstraint__init__ : M HdlConstraint :=
  let* indexes := alloc (OList []) in
  let* field_cons0 := alloc (ODict []) in
  ret {| HdlConstraint_base := iHdlObj__init__;
         HdlConstraint_range := PyNone;
         HdlConstraint_indexes := indexes;
         element := PyNone;
         field_cons := field_cons0 |}.

Definition HdlTypeDec__init__ : M HdlTypeDec :=
  let* ids0 := alloc (ODict []) in
  let* fields0 := alloc (ODict []) in
  ret {| HdlTypeDec_base := iHdlObjWithName__init__;
         HdlTypeDec_subtype := PyNone;
         ids := ids0;
         base_type := PyNone;
         isUnion := false;
         HdlTypeDec_indexes := PyNone;
         elem_type := PyNone;
         fields := fields0 |}.

Definition HdlTypeBitsDef__init__
    (msb0 : Z) (lsb0 : option Z) (signed0 : option bool) : M HdlTypeBitsDef :=
  ret {| HdlTypeBitsDef_base := iHdlObjWithName__init__;
         HdlTypeBitsDef_name := name__init__;
         msb := msb0;
         lsb := default 0 lsb0;
         signed := default false signed0;
         is_bigendian := false;
         states := 2 |}.

(** No line of [HdlClassDef.__init__] assigns [is_interface], and the base
    classes do not know the slot: it is empty after construction. *)
Definition HdlClassDef__init__ : M HdlClassDef :=
  let* parents0 := alloc (OList []) in
  let* private0 := alloc (OList []) in
  let* public0 := alloc (OList []) in
  let* protected0 := alloc (OList []) in
  ret {| HdlClassDef_base := iHdlObjWithName__init__;
         HdlClassDef_name := name__init__;
         parents := parents0;
         is_virtual := false;
         is_static := false;
         is_struct := false;
         is_union := false;
         is_interface := None;
         private := private0;
         public := public0;
         protected := protected0 |}.

Definition HdlEnumDef__init__ : M HdlEnumDef :=
  let* values0 := alloc (OList []) in
  ret {| HdlEnumDef_base := iHdlObjWithName__init__;
         HdlEnumDef_name := name__init__;
         values := values0 |}.

(** ** The methods of HdlTypeBitsDef *)

Definition width (self : HdlTypeBitsDef) : Z :=
  if msb self >=? lsb self
  then msb self - lsb self
  else lsb self - msb self.

Definition __hash__ (self : HdlTypeBitsDef) : Z :=
  hash (PyTuple [PyInt (msb self); PyInt (lsb self);
                 PyBool (signed self); PyBool (is_bigendian self)]).

(** [isinstance(other, HdlTypeBitsDef)], with the node when it holds. *)
Definition isinstance_HdlTypeBitsDef (h : heap) (other : pyval)
    : option HdlTypeBitsDef :=
  node as_HdlTypeBitsDef h other.

Definition __eq__ (h : heap) (self : HdlTypeBitsDef) (other : pyval) : bool :=
  match isinstance_HdlTypeBitsDef h other with
  | Some o =>
      (msb self =? msb o)
      && (lsb self =? lsb o)
      && Bool.eqb (signed self) (signed o)
      && Bool.eqb (is_bigendian self) (is_bigendian o)
  | None => false
  end.

(** ** What the specification observes on the nodes *)

(** The three alternatives of a range and how many of them are populated. *)
Definition alternatives (r : HdlRange) : list pyval :=
  [HdlRange_subtype r; HdlRange_range r; attribute r].

Definition count_populated (vs : list pyval) : nat :=
  length (List.filter is_not_None vs).

Definition populated (r : HdlRange) : nat := count_populated (alternatives r).

(** The shapes of a type declaration: alias (subtype set), array (element
    type and indexes set), record or union (fields non-empty). *)
Definition alias_shape (t : HdlTypeDec) : bool :=
  is_not_None (HdlTypeDec_subtype t).

Definition array_shape (t : HdlTypeDec) : bool :=
  is_not_None (elem_type t) && is_not_None (HdlTypeDec_indexes t).

Definition record_shape (h : heap) (t : HdlTypeDec) : bool :=
  match dict_items h (fields t) with
  | Some (_ :: _) => true
  | _ => false
  end.

Definition shapes (h : heap) (t : HdlTypeDec) : nat :=
  (Nat.b2n (alias_shape t) + Nat.b2n (array_shape t)
   + Nat.b2n (record_shape h t))%nat.

(** A member of an enum as the annotation of [values] has it,
    [Union[str, Tuple[str, int]]], and the Python value it is. *)
Inductive enum_member : Type :=
| Bare (ident : string)
| Valued (ident : string) (value : Z).

Definition member_val (m : enum_member) : pyval :=
  match m with
  | Bare ident => PyStr ident
  | Valued ident value => PyTuple [PyStr ident; PyInt value]
  end.

Definition is_member (v : pyval) : bool :=
  match v with
  | PyStr _ => true
  | PyTuple [PyStr _; PyInt _] => true
  | _ => false
  end.

(** ** How callers build and fill the nodes *)

(** [t.subtype = v], [t.indexes = v], [t.elem_type = v] *)
Definition assign_subtype (v : pyval) (t : HdlTypeDec) : HdlTypeDec :=
  {| HdlTypeDec_base := HdlTypeDec_base t; HdlTypeDec_subtype := v;
     ids := ids t; base_type := base_type t; isUnion := isUnion t;
     HdlTypeDec_indexes := HdlTypeDec_indexes t; elem_type := elem_type t;
     fields := fields t |}.

Definition assign_indexes (v : pyval) (t : HdlTypeDec) : HdlTypeDec :=
  {| HdlTypeDec_base := HdlTypeDec_base t;
     HdlTypeDec_subtype := HdlTypeDec_subtype t;
     ids := ids t; base_type := base_type t; isUnion := isUnion t;
     HdlTypeDec_indexes := v; elem_type := elem_type t;
     fields := fields t |}.

Definition assign_elem_type (v : pyval) (t : HdlTypeDec) : HdlTypeDec :=
  {| HdlTypeDec_base := HdlTypeDec_base t;
     HdlTypeDec_subtype := HdlTypeDec_subtype t;
     ids := ids t; base_type := base_type t; isUnion := isUnion t;
     HdlTypeDec_indexes := HdlTypeDec_indexes t; elem_type := v;
     fields := fields t |}.

(** [t = HdlTypeDec(); t.subtype = v] *)
Definition declare_alias (v : pyval) : M pyval :=
  let* t := construct OHdlTypeDec HdlTypeDec__init__ in
  let* _ := setattr as_HdlTypeDec OHdlTypeDec (assign_subtype v) "subtype" t in
  ret t.

(** [t = HdlTypeDec(); t.elem_type = e; t.indexes = i] *)
Definition declare_array (e i : pyval) : M pyval :=
  let* t := construct OHdlTypeDec HdlTypeDec__init__ in
  let* _ := setattr as_HdlTypeDec OHdlTypeDec (assign_elem_type e) "elem_type" t in
  let* _ := setattr as_HdlTypeDec OHdlTypeDec (assign_indexes i) "indexes" t in
  ret t.

(** [t = HdlTypeDec(); t.fields[f] = v] *)
Definition declare_record (f : string) (v : pyval) : M pyval :=
  let* t := construct OHdlTypeDec HdlTypeDec__init__ in
  let* fs := getattr as_HdlTypeDec fields "fields" t in
  let* _ := setitem fs f v in
  ret t.

(** [t = HdlTypeDec(); t.subtype = s; t.fields[f] = v]: two shapes at once *)
Definition declare_alias_and_record (s : pyval) (f : string) (v : pyval)
    : M pyval :=
  let* t := construct OHdlTypeDec HdlTypeDec__init__ in
  let* _ := setattr as_HdlTypeDec OHdlTypeDec (assign_subtype s) "subtype" t in
  let* fs := getattr as_HdlTypeDec fields "fields" t in
  let* _ := setitem fs f v in
  ret t.

(** [for v in vs: r.append(v)] *)
Fixpoint append_all (r : pyval) (vs : list pyval) : M unit :=
  match vs with
  | [] => ret tt
  | v :: rest => let* _ := list_append r v in append_all r rest
  end.

(** [e = HdlEnumDef(); for m in members: e.values.append(m)] *)
Definition declare_enum (members : list pyval) : M pyval :=
  let* e := construct OHdlEnumDef HdlEnumDef__init__ in
  let* vs := getattr as_HdlEnumDef values "values" e in
  let* _ := append_all vs members in
  ret e.

(** [c.indexes.append(i); c.field_cons[f] = v] *)
Definition constrain (c i : pyval) (f : string) (v : pyval) : M unit :=
  let* ixs := getattr as_HdlConstraint HdlConstraint_indexes "indexes" c in
  let* _ := list_append ixs i in
  let* fcs := getattr as_HdlConstraint field_cons "field_cons" c in
  setitem fcs f v.

(** [c1 = HdlConstraint(); c2 = HdlConstraint()] *)
Definition two_constraints : M (pyval * pyval) :=
  let* c1 := construct OHdlConstraint HdlConstraint__init__ in
  let* c2 := construct OHdlConstraint HdlConstraint__init__ in
  ret (c1, c2).

(** ** Looking at the outcome of a run *)

(** What [f] sees in the final heap and the returned value, when the run
    returns. *)
Definition observe {A B : Type} (f : heap -> A -> B) (m : M A) (h : heap)
    : option B :=
  match m h with
  | Ok (a, h') => Some (f h' a)
  | Raise _ => None
  end.

Definition populated_at (h : heap) (r : pyval) : option nat :=
  populated <$> node as_HdlRange h r.

Definition shapes_at (h : heap) (r : pyval) : option nat :=
  shapes h <$> node as_HdlTypeDec h r.

(** Which of (alias, array, record) are populated. *)
Definition shape_flags (h : heap) (t : HdlTypeDec) : bool * bool * bool :=
  (alias_shape t, array_shape t, record_shape h t).

Definition shape_flags_at (h : heap) (r : pyval) : option (bool * bool * bool) :=
  shape_flags h <$> node as_HdlTypeDec h r.

(** ** More of the classes and of their callers *)

(** The class constants of [HdlTypeBitsDef]. *)
Definition STD_LOGIC_STATES : Z := 9.
Definition WIRE_STATES : Z := 4.

Definition as_HdlSubtype (o : hobj) : option HdlSubtype :=
  match o with OHdlSubtype x => Some x | _ => None end.

(** A run that only adds objects to the heap and returns a reference to one
    of the objects it added. *)
Definition only_allocates (m : M pyval) (h : heap) : Prop :=
  exists r new,
    m h = Ok (r, h ++ new)
    /\ deref h r = None
    /\ is_Some (deref (h ++ new) r).

(** [x = HdlTypeBitsDef(m, l, s); y = HdlTypeBitsDef(m, l, s)] *)
Definition two_bit_vectors (m : Z) (l : option Z) (s : option bool)
    : M (pyval * pyval) :=
  let* x := construct OHdlTypeBitsDef (HdlTypeBitsDef__init__ m l s) in
  let* y := construct OHdlTypeBitsDef (HdlTypeBitsDef__init__ m l s) in
  ret (x, y).

(** The four slots of [HdlClassDef] that hold a list. *)
Inductive member_list : Type := Parents | Private | Public | Protected.

Definition member_list_of (p : member_list) (c : HdlClassDef) : pyval :=
  match p with
  | Parents => parents c
  | Private => private c
  | Public => public c
  | Protected => protected c
  end.

Definition member_list_name (p : member_list) : string :=
  match p with
  | Parents => "parents"
  | Private => "private"
  | Public => "public"
  | Protected => "protected"
  end.

(** [c.parents.append(m)], [c.private.append(m)], ... *)
Definition add_member (c : pyval) (p : member_list) (m : pyval) : M unit :=
  let* l := getattr as_HdlClassDef (member_list_of p) (member_list_name p) c in
  list_append l m.

(** [c.is_interface = b] *)
Definition assign_is_interface (b : bool) (c : HdlClassDef) : HdlClassDef :=
  {| HdlClassDef_base := HdlClassDef_base c;
     HdlClassDef_name := HdlClassDef_name c;
     parents := parents c;
     is_virtual := is_virtual c; is_static := is_static c;
     is_struct := is_struct c; is_union := is_union c;
     is_interface := Some b;
     private := private c; public := public c; protected := protected c |}.

(** [c = HdlConstraint(); s = HdlSubtype(p, c)] *)
Definition constrained_subtype (p : pyval) : M (pyval * pyval) :=
  let* c := construct OHdlConstraint HdlConstraint__init__ in
  let* s := construct OHdlSubtype (HdlSubtype__init__ (Some p) (Some c)) in
  ret (c, s).

End TypeDefs.

Abbreviation heap := (list hobj) (only parsing).

(** ** A concrete setting to evaluate the definitions in

    Base classes that own no state and leave [name] at [None], and a [hash]
    that tells tuples apart by their first component. *)
Definition plain_bases : Bases :=
  {| iHdlObj := unit; iHdlObj__init__ := tt;
     iHdlObjWithName := unit; iHdlObjWithName__init__ := tt;
     name__init__ := Some PyNone |}.

Definition first_int_hash : Builtins :=
  {| hash := fun v => match v with PyTuple (PyInt z :: _) => z | _ => 0 end |}.

(** Two bytes that differ in name and state count only, and the same
    bounds the other way round. *)
Definition byte_a : @HdlTypeBitsDef plain_bases :=
  @mkHdlTypeBitsDef plain_bases tt (Some (PyStr "a")) 7 0 false false 2.

Definition byte_b : @HdlTypeBitsDef plain_bases :=
  @mkHdlTypeBitsDef plain_bases tt (Some (PyStr "b")) 7 0 false false 9.

Definition byte_reversed : @HdlTypeBitsDef plain_bases :=
  @mkHdlTypeBitsDef plain_bases tt (Some (PyStr "a")) 0 7 false false 2.

Definition sample_heap : list (@hobj plain_bases) :=
  [OHdlTypeBitsDef byte_a; OHdlTypeBitsDef byte_b; OList []].

(** * Properties *)

Section Properties.
Context {bases : Bases} {builtins : Builtins}.

(** ** The heap under allocation

    A run that starts in an arbitrary heap [h] leaves a heap [h ++ new], and
    every address it creates is [length h + k]. *)

Lemma lookup_new (h l : heap) (k : nat) :
  (h ++ l) !! (length h + k)%nat = l !! k.
Proof. rewrite lookup_app_r by lia. f_equal. lia. Qed.

Lemma lookup_new0 (h l : heap) : (h ++ l) !! length h = l !! 0%nat.
Proof. rewrite <- (lookup_new h l 0). f_equal. lia. Qed.

Lemma insert_new0 (h l : heap) (o : hobj) :
  <[length h := o]> (h ++ l) = h ++ <[0%nat := o]> l.
Proof. rewrite <- insert_app_r. f_equal. lia. Qed.

Ltac heap_simpl :=
  repeat first
    [ progress simpl
    | progress rewrite length_app
    | progress rewrite <- Nat.add_assoc
    | progress rewrite <- app_assoc
    | progress rewrite lookup_new
    | progress rewrite lookup_new0
    | progress rewrite insert_app_r
    | progress rewrite insert_new0 ].

Ltac run :=
  cbv beta delta [bind ret construct alloc getattr getattr_slot setattr
                  setitem list_append node deref list_items dict_items
                  shapes shape_flags alias_shape array_shape record_shape];
  heap_simpl.

Lemma HdlConstraint_new (h : heap) :
  construct OHdlConstraint HdlConstraint__init__ h =
  Ok (PyRef (length h + 2)%nat,
      h ++ [OList []; ODict [];
            OHdlConstraint
              {| HdlConstraint_base := iHdlObj__init__;
                 HdlConstraint_range := PyNone;
                 HdlConstraint_indexes := PyRef (length h);
                 element := PyNone;
                 field_cons := PyRef (length h + 1)%nat |}]).
Proof. unfold HdlConstraint__init__. run. reflexivity. Qed.

(** ** HdlTypeBitsDef.width *)


(** C1: for all integers a and b, the width of a bit vector with bounds a
    and b is the same whichever of the two is the msb, and it is the absolute
    difference |a - b|, not the number of bits; with msb 7 and lsb 0 it is 7. *)
Theorem width_symmetric_abs_diff :
  forall (a b : Z) (x y : HdlTypeBitsDef),
    msb x = a -> lsb x = b -> msb y = b -> lsb y = a ->
    width x = width y /\ width x = Z.abs (a - b).
Proof.
  intros a b x y Hxa Hxb Hyb Hya. unfold width.
  rewrite Hxa, Hxb, Hyb, Hya.
  destruct (Z.geb_spec a b), (Z.geb_spec b a); lia.
Qed.

Lemma HdlTypeDec_new (h : heap) :
  construct OHdlTypeDec HdlTypeDec__init__ h =
  Ok (PyRef (length h + 2)%nat,
      h ++ [ODict []; ODict [];
            OHdlTypeDec
              {| HdlTypeDec_base := iHdlObjWithName__init__;
                 HdlTypeDec_subtype := PyNone;
                 ids := PyRef (length h);
                 base_type := PyNone;
                 isUnion := false;
                 HdlTypeDec_indexes := PyNone;
                 elem_type := PyNone;
                 fields := PyRef (length h + 1)%nat |}]).
Proof. unfold HdlTypeDec__init__. run. reflexivity. Qed.

Lemma HdlRange_new (s r a : option pyval) (h : heap) :
  construct OHdlRange (HdlRange__init__ s r a) h =
  Ok (PyRef (length h),
      h ++ [OHdlRange
              {| HdlRange_base := iHdlObj__init__;
                 HdlRange_subtype := default PyNone s;
                 HdlRange_range := default PyNone r;
                 attribute := default PyNone a |}]).
Proof. reflexivity. Qed.

Ltac observing :=
  cbv beta delta [observe populated_at shapes_at shape_flags_at].

(** ** Ranges *)

(** C3, as amended: a Range node stores its three constructor arguments
    (None for one left out) as they are, so it has as many populated
    alternatives as it was given arguments that are not None: any number from
    zero to three, and exactly one when the caller passes exactly one. *)
Theorem HdlRange_populated_as_given :
  forall (s r a : option pyval) (h : heap),
    (exists n h' x,
        construct OHdlRange (HdlRange__init__ s r a) h = Ok (n, h')
        /\ node as_HdlRange h' n = Some x
        /\ HdlRange_subtype x = default PyNone s
        /\ HdlRange_range x = default PyNone r
        /\ attribute x = default PyNone a
        /\ populated x
           = count_populated
               [default PyNone s; default PyNone r; default PyNone a])
    /\ observe populated_at (construct OHdlRange (HdlRange__init__ s r a)) h
       = Some (Some (count_populated
                       [default PyNone s; default PyNone r; default PyNone a]))
    /\ (count_populated
          [default PyNone s; default PyNone r; default PyNone a] <= 3)%nat.
Proof.
  intros s r a h. split; [|split].
  - do 3 eexists. rewrite HdlRange_new. split; [done|].
    split; [run; reflexivity|]. by simpl.
  - observing. rewrite HdlRange_new. run. reflexivity.
  - unfold count_populated. simpl.
    repeat (destruct (is_not_None _)); simpl; lia.
Qed.

(** ** Type declarations *)

(** C4, as amended: a TypeDeclaration node is constructed with no shape
    populated (subtype, element type and indexes are None, the field mapping
    is empty); a shape is populated by assigning its fields afterwards, and
    a node on which the fields of exactly one shape were assigned (subtype;
    element type and indexes; an entry of the field mapping) has exactly that
    shape. *)
Theorem HdlTypeDec_shapes_as_assigned :
  forall h : heap,
    (exists t h' x,
        construct OHdlTypeDec HdlTypeDec__init__ h = Ok (t, h')
        /\ node as_HdlTypeDec h' t = Some x
        /\ HdlTypeDec_subtype x = PyNone
        /\ elem_type x = PyNone
        /\ HdlTypeDec_indexes x = PyNone
        /\ dict_items h' (fields x) = Some []
        /\ dict_items h' (ids x) = Some []
        /\ base_type x = PyNone
        /\ isUnion x = false
        /\ shape_flags h' x = (false, false, false)
        /\ shapes h' x = 0%nat)
    /\ (forall v, is_not_None v = true ->
          exists t h' x,
            declare_alias v h = Ok (t, h')
            /\ node as_HdlTypeDec h' t = Some x
            /\ HdlTypeDec_subtype x = v
            /\ elem_type x = PyNone
            /\ HdlTypeDec_indexes x = PyNone
            /\ dict_items h' (fields x) = Some []
            /\ shape_flags h' x = (true, false, false)
            /\ shapes h' x = 1%nat)
    /\ (forall e i, is_not_None e = true -> is_not_None i = true ->
          exists t h' x,
            declare_array e i h = Ok (t, h')
            /\ node as_HdlTypeDec h' t = Some x
            /\ HdlTypeDec_subtype x = PyNone
            /\ elem_type x = e
            /\ HdlTypeDec_indexes x = i
            /\ dict_items h' (fields x) = Some []
            /\ shape_flags h' x = (false, true, false)
            /\ shapes h' x = 1%nat)
    /\ (forall f v,
          exists t h' x,
            declare_record f v h = Ok (t, h')
            /\ node as_HdlTypeDec h' t = Some x
            /\ HdlTypeDec_subtype x = PyNone
            /\ elem_type x = PyNone
            /\ HdlTypeDec_indexes x = PyNone
            /\ dict_items h' (fields x) = Some [(f, v)]
            /\ shape_flags h' x = (false, false, true)
            /\ shapes h' x = 1%nat).
Proof.
  intros h. split; [|split; [|split]].
  - do 3 eexists. rewrite HdlTypeDec_new. split; [done|].
    split; [run; reflexivity|]. simpl.
    repeat split; run; reflexivity.
  - intros v Hv. do 3 eexists. unfold declare_alias, bind at 1.
    rewrite HdlTypeDec_new. run. split; [reflexivity|].
    split; [run; reflexivity|]. simpl.
    repeat split; run; by rewrite ?Hv.
  - intros e i He Hi. do 3 eexists. unfold declare_array, bind at 1.
    rewrite HdlTypeDec_new. run. split; [reflexivity|].
    split; [run; reflexivity|]. simpl.
    repeat split; run; by rewrite ?He, ?Hi.
  - intros f v. do 3 eexists. unfold declare_record, bind at 1.
    rewrite HdlTypeDec_new. run. split; [reflexivity|].
    split; [run; reflexivity|]. simpl.
    repeat split; run; reflexivity.
Qed.

(** ** Construction does not check the shape *)

(** C5: the constructors of Range, Constraint and TypeDeclaration return a
    node for every heap and all arguments, without raising; this holds for a
    Range with all three alternatives set, and a TypeDeclaration that then
    gets both a subtype and an entry in its field mapping is built without an
    error as well. *)
Theorem constructors_never_raise :
  forall h : heap,
    (forall s r a, exists n h' x,
        construct OHdlRange (HdlRange__init__ s r a) h = Ok (n, h')
        /\ node as_HdlRange h' n = Some x)
    /\ (exists n h' x,
          construct OHdlConstraint HdlConstraint__init__ h = Ok (n, h')
          /\ node as_HdlConstraint h' n = Some x)
    /\ (exists n h' x,
          construct OHdlTypeDec HdlTypeDec__init__ h = Ok (n, h')
          /\ node as_HdlTypeDec h' n = Some x)
    /\ (forall s r a,
          is_not_None s = true -> is_not_None r = true ->
          is_not_None a = true ->
          observe populated_at
            (construct OHdlRange (HdlRange__init__ (Some s) (Some r) (Some a))) h
          = Some (Some 3%nat))
    /\ (forall s f v,
          is_not_None s = true ->
          observe shape_flags_at (declare_alias_and_record s f v) h
          = Some (Some (true, false, true))).
Proof.
  intros h. split; [|split; [|split; [|split]]].
  - intros s r a. do 3 eexists. rewrite HdlRange_new. split; [done|].
    run. reflexivity.
  - do 3 eexists. rewrite HdlConstraint_new. split; [done|].
    run. reflexivity.
  - do 3 eexists. rewrite HdlTypeDec_new. split; [done|].
    run. reflexivity.
  - intros s r a Hs Hr Ha. observing. rewrite HdlRange_new. run.
    unfold populated, count_populated. simpl. by rewrite Hs, Hr, Ha.
  - intros s f v Hs. unfold declare_alias_and_record. observing.
    unfold bind at 1. rewrite HdlTypeDec_new. run. by rewrite Hs.
Qed.

(** ** Class-like aggregates *)

Lemma HdlClassDef_new (h : heap) :
  construct OHdlClassDef HdlClassDef__init__ h =
  Ok (PyRef (length h + 4)%nat,
      h ++ [OList []; OList []; OList []; OList [];
            OHdlClassDef
              {| HdlClassDef_base := iHdlObjWithName__init__;
                 HdlClassDef_name := name__init__;
                 parents := PyRef (length h);
                 is_virtual := false;
                 is_static := false;
                 is_struct := false;
                 is_union := false;
                 is_interface := None;
                 private := PyRef (length h + 1)%nat;
                 public := PyRef (length h + 2)%nat;
                 protected := PyRef (length h + 3)%nat |}]).
Proof. unfold HdlClassDef__init__. run. reflexivity. Qed.

(** C7, what the code does: a new class-like node has an empty parent list,
    three empty visibility partitions and the flags virtual, static, struct
    and union at false, but reading its interface flag raises AttributeError:
    the slot [is_interface] is declared and never assigned. *)
Theorem HdlClassDef_is_interface_unset :
  forall h : heap,
  exists c h' x,
    construct OHdlClassDef HdlClassDef__init__ h = Ok (c, h')
    /\ node as_HdlClassDef h' c = Some x
    /\ list_items h' (parents x) = Some []
    /\ list_items h' (public x) = Some []
    /\ list_items h' (protected x) = Some []
    /\ list_items h' (private x) = Some []
    /\ getattr as_HdlClassDef is_virtual "is_virtual" c h' = Ok (false, h')
    /\ getattr as_HdlClassDef is_static "is_static" c h' = Ok (false, h')
    /\ getattr as_HdlClassDef is_struct "is_struct" c h' = Ok (false, h')
    /\ getattr as_HdlClassDef is_union "is_union" c h' = Ok (false, h')
    /\ getattr_slot as_HdlClassDef is_interface "is_interface" c h'
       = Raise (AttributeError "is_interface").
Proof.
  intros h. do 3 eexists. rewrite HdlClassDef_new.
  split; [done|]. split; [run; reflexivity|].
  repeat split; run; reflexivity.
Qed.

(** ** Enumerations *)

Lemma append_all_items (vs items : list pyval) (h : heap) (a : addr) :
  h !! a = Some (OList items) ->
  append_all (PyRef a) vs h = Ok (tt, <[a := OList (items ++ vs)]> h).
Proof.
  revert items h. induction vs as [|v rest IH]; intros items h Ha.
  - simpl. unfold ret. by rewrite app_nil_r, list_insert_id.
  - simpl. unfold bind, list_append. simpl. rewrite Ha.
    rewrite (IH (items ++ [v])).
    + by rewrite list_insert_insert_eq, <- app_assoc.
    + apply list_lookup_insert_eq. by eapply lookup_lt_Some.
Qed.

Lemma member_val_is_member (m : enum_member) : is_member (member_val m) = true.
Proof. by destruct m. Qed.

Lemma declare_enum_run (vs : list pyval) (h : heap) :
  declare_enum vs h =
  Ok (PyRef (length h + 1)%nat,
      h ++ [OList vs;
            OHdlEnumDef
              {| HdlEnumDef_base := iHdlObjWithName__init__;
                 HdlEnumDef_name := name__init__;
                 values := PyRef (length h) |}]).
Proof.
  unfold declare_enum, HdlEnumDef__init__. run.
  rewrite (append_all_items _ []) by apply lookup_new0. run. reflexivity.
Qed.

(** C8: an enum built by appending members in some order stores exactly that
    sequence, in that order; every stored member is a bare identifier or an
    (identifier, integer) pair, and the two kinds may be mixed freely. *)
Theorem enum_members_in_declared_order :
  forall (ms : list enum_member) (h : heap),
  exists e h' x,
    declare_enum (member_val <$> ms) h = Ok (e, h')
    /\ node as_HdlEnumDef h' e = Some x
    /\ list_items h' (values x) = Some (member_val <$> ms)
    /\ Forall (fun v => is_member v = true) (member_val <$> ms).
Proof.
  intros ms h. do 3 eexists. rewrite declare_enum_run.
  split; [done|]. split; [run; reflexivity|]. split; [run; reflexivity|].
  apply Forall_fmap, Forall_forall. intros m _. apply member_val_is_member.
Qed.

(** Scenario C of the specification. *)
Example enum_red_green_blue (h : heap) :
  observe
    (fun h' e => node as_HdlEnumDef h' e ≫= fun x => list_items h' (values x))
    (declare_enum (member_val <$> [Bare "RED"; Bare "GREEN"; Valued "BLUE" 5]))
    h
  = Some (Some [PyStr "RED"; PyStr "GREEN"; PyTuple [PyStr "BLUE"; PyInt 5]]).
Proof. unfold observe. rewrite declare_enum_run. run. reflexivity. Qed.

(** ** Constraints *)

(** Construction leaves every object of the heap as it was, and the two
    containers of the new constraint are at addresses that the heap did not
    have: no node that exists already can refer to them. *)
Lemma HdlConstraint_containers_new (h : heap) :
  exists c h' x ixs fcs,
    construct OHdlConstraint HdlConstraint__init__ h = Ok (c, h')
    /\ node as_HdlConstraint h' c = Some x
    /\ HdlConstraint_indexes x = PyRef ixs /\ field_cons x = PyRef fcs
    /\ h !! ixs = None /\ h !! fcs = None
    /\ (forall a o, h !! a = Some o -> h' !! a = Some o).
Proof.
  do 5 eexists. rewrite HdlConstraint_new.
  split; [done|]. split; [run; reflexivity|]. simpl.
  split; [done|]. split; [done|].
  split; [apply lookup_ge_None; lia|]. split; [apply lookup_ge_None; lia|].
  intros a o Ha. rewrite lookup_app_l; [done|]. by eapply lookup_lt_Some.
Qed.

Lemma two_constraints_run (h : heap) :
  two_constraints h =
  Ok ((PyRef (length h + 2)%nat, PyRef (length h + 5)%nat),
      h ++ [OList []; ODict [];
            OHdlConstraint
              {| HdlConstraint_base := iHdlObj__init__;
                 HdlConstraint_range := PyNone;
                 HdlConstraint_indexes := PyRef (length h);
                 element := PyNone;
                 field_cons := PyRef (length h + 1)%nat |};
            OList []; ODict [];
            OHdlConstraint
              {| HdlConstraint_base := iHdlObj__init__;
                 HdlConstraint_range := PyNone;
                 HdlConstraint_indexes := PyRef (length h + 3)%nat;
                 element := PyNone;
                 field_cons := PyRef (length h + 4)%nat |}]).
Proof.
  unfold two_constraints, bind at 1. rewrite HdlConstraint_new.
  unfold bind at 1. rewrite HdlConstraint_new. run. reflexivity.
Qed.

(** C9: a new Constraint node has no range, an empty index list, no element
    constraint and an empty field map; and of two Constraint nodes that were
    constructed separately each has a list and a map of its own, so that an
    index or field constraint added to one of them leaves the containers of
    the other as they were. *)
Theorem HdlConstraint_fresh_containers :
  forall (h : heap) (i : pyval) (f : string) (v : pyval),
    (exists c h' x,
        construct OHdlConstraint HdlConstraint__init__ h = Ok (c, h')
        /\ node as_HdlConstraint h' c = Some x
        /\ HdlConstraint_range x = PyNone
        /\ list_items h' (HdlConstraint_indexes x) = Some []
        /\ element x = PyNone
        /\ dict_items h' (field_cons x) = Some [])
    /\ (exists c1 c2 h2 x1 x2,
          two_constraints h = Ok ((c1, c2), h2)
          /\ node as_HdlConstraint h2 c1 = Some x1
          /\ node as_HdlConstraint h2 c2 = Some x2
          /\ HdlConstraint_indexes x1 <> HdlConstraint_indexes x2
          /\ field_cons x1 <> field_cons x2
          /\ (exists h3,
                constrain c1 i f v h2 = Ok (tt, h3)
                /\ list_items h3 (HdlConstraint_indexes x1) = Some [i]
                /\ dict_items h3 (field_cons x1) = Some [(f, v)]
                /\ list_items h3 (HdlConstraint_indexes x2) = Some []
                /\ dict_items h3 (field_cons x2) = Some [])
          /\ (exists h3,
                constrain c2 i f v h2 = Ok (tt, h3)
                /\ list_items h3 (HdlConstraint_indexes x2) = Some [i]
                /\ dict_items h3 (field_cons x2) = Some [(f, v)]
                /\ list_items h3 (HdlConstraint_indexes x1) = Some []
                /\ dict_items h3 (field_cons x1) = Some [])).
Proof.
  intros h i f v. split.
  - do 3 eexists. rewrite HdlConstraint_new.
    split; [done|]. split; [run; reflexivity|].
    repeat split; run; reflexivity.
  - do 5 eexists. rewrite two_constraints_run.
    split; [done|]. split; [run; reflexivity|]. split; [run; reflexivity|].
    simpl. split; [intros [= ?]; lia|]. split; [intros [= ?]; lia|].
    split; eexists; (split; [unfold constrain; run; reflexivity|]);
      repeat split; run; reflexivity.
Qed.

(** ** Construction of a bit vector type *)

Lemma HdlTypeBitsDef_defaults (m : Z) (h : heap) :
  HdlTypeBitsDef__init__ m None None h =
  Ok ({| HdlTypeBitsDef_base := iHdlObjWithName__init__;
         HdlTypeBitsDef_name := name__init__;
         msb := m; lsb := 0; signed := false; is_bigendian := false;
         states := 2 |}, h).
Proof. reflexivity. Qed.

(** C6, as amended: constructing a bit vector type from msb alone never
    fails and gives lsb = 0, signed = false, big-endian = false and 2 states;
    its width is |msb - 0|, which is msb - 0 when msb is not negative, as in
    scenario A (msb = 7, width 7). *)
Theorem HdlTypeBitsDef_msb_only :
  forall (m : Z) (h : heap),
  exists x : HdlTypeBitsDef,
    HdlTypeBitsDef__init__ m None None h = Ok (x, h)
    /\ msb x = m /\ lsb x = 0 /\ signed x = false
    /\ is_bigendian x = false /\ states x = 2
    /\ width x = Z.abs (m - 0)
    /\ (0 <= m -> width x = m - 0).
Proof.
  intros m h. eexists. rewrite HdlTypeBitsDef_defaults.
  repeat split; unfold width; simpl; destruct (Z.geb_spec m 0); lia.
Qed.

(** ** Equality and hash of bit vector types *)

Lemma isinstance_node (h : heap) (r : pyval) (y : HdlTypeBitsDef) :
  node as_HdlTypeBitsDef h r = Some y ->
  isinstance_HdlTypeBitsDef h r = Some y.
Proof. done. Qed.

(** [__eq__] against a bit vector node is the comparison of the four
    fields. *)
Lemma eq_fields (h : heap) (x y : HdlTypeBitsDef) (r : pyval) :
  node as_HdlTypeBitsDef h r = Some y ->
  __eq__ h x r = true <->
  msb x = msb y /\ lsb x = lsb y /\ signed x = signed y
  /\ is_bigendian x = is_bigendian y.
Proof.
  intros Hr. unfold __eq__. rewrite (isinstance_node _ _ _ Hr).
  rewrite !andb_true_iff, !Z.eqb_eq, !Bool.eqb_true_iff. tauto.
Qed.

Lemma hash_fields (x y : HdlTypeBitsDef) :
  msb x = msb y -> lsb x = lsb y -> signed x = signed y ->
  is_bigendian x = is_bigendian y ->
  __hash__ x = __hash__ y.
Proof. unfold __hash__. by intros -> -> -> ->. Qed.

(** C2: equality and hash of bit vector type nodes are defined over msb,
    lsb, the signed flag and the big-endian flag only: a node is equal to
    another exactly when these four agree, and then the two have the same
    hash, whatever their state counts and names are. *)
Theorem eq_and_hash_ignore_states_and_name :
  forall (h : heap) (x y : HdlTypeBitsDef) (r : pyval),
    node as_HdlTypeBitsDef h r = Some y ->
    (__eq__ h x r = true <->
     msb x = msb y /\ lsb x = lsb y /\ signed x = signed y
     /\ is_bigendian x = is_bigendian y)
    /\ (msb x = msb y -> lsb x = lsb y -> signed x = signed y ->
        is_bigendian x = is_bigendian y ->
        __eq__ h x r = true /\ __hash__ x = __hash__ y).
Proof.
  intros h x y r Hr. split.
  - by apply eq_fields.
  - intros Hm Hl Hs Hb. split.
    + by apply (eq_fields h x y r Hr).
    + by apply hash_fields.
Qed.

(** C10: on bit vector type nodes [__eq__] is reflexive, symmetric and
    transitive; a bit vector type node is never equal to a value that is not
    one; and nodes that are equal have equal hashes. *)
Theorem eq_equivalence_consistent_with_hash :
  forall h : heap,
    (forall r x, node as_HdlTypeBitsDef h r = Some x -> __eq__ h x r = true)
    /\ (forall r1 r2 x y,
          node as_HdlTypeBitsDef h r1 = Some x ->
          node as_HdlTypeBitsDef h r2 = Some y ->
          __eq__ h x r2 = true -> __eq__ h y r1 = true)
    /\ (forall r2 r3 x y z,
          node as_HdlTypeBitsDef h r2 = Some y ->
          node as_HdlTypeBitsDef h r3 = Some z ->
          __eq__ h x r2 = true -> __eq__ h y r3 = true ->
          __eq__ h x r3 = true)
    /\ (forall x v,
          isinstance_HdlTypeBitsDef h v = None -> __eq__ h x v = false)
    /\ (forall r x y,
          node as_HdlTypeBitsDef h r = Some y ->
          __eq__ h x r = true -> __hash__ x = __hash__ y).
Proof.
  intros h. repeat split.
  - intros r x Hx. by apply (eq_fields h x x r Hx).
  - intros r1 r2 x y Hx Hy Hxy.
    apply (eq_fields h x y r2 Hy) in Hxy as (? & ? & ? & ?).
    by apply (eq_fields h y x r1 Hx).
  - intros r2 r3 x y z Hy Hz Hxy Hyz.
    apply (eq_fields h x y r2 Hy) in Hxy as (? & ? & ? & ?).
    apply (eq_fields h y z r3 Hz) in Hyz as (? & ? & ? & ?).
    apply (eq_fields h x z r3 Hz). repeat split; congruence.
  - intros x v Hv. unfold __eq__. by rewrite Hv.
  - intros r x y Hy Hxy.
    apply (eq_fields h x y r Hy) in Hxy as (? & ? & ? & ?).
    by apply hash_fields.
Qed.

(** * Further properties of the code *)

(** ** Width *)

(** X1: the width is never negative, it is zero exactly when the two bounds
    coincide (so a single bit has width 0), and it does not change when both
    bounds are shifted by the same amount. *)
Theorem width_nonneg_zero_shift :
  forall x : HdlTypeBitsDef,
    0 <= width x
    /\ (width x = 0 <-> msb x = lsb x)
    /\ (forall (y : HdlTypeBitsDef) (k : Z),
          msb y = msb x + k -> lsb y = lsb x + k -> width y = width x).
Proof.
  intros x. unfold width. split; [|split].
  - destruct (Z.geb_spec (msb x) (lsb x)); lia.
  - destruct (Z.geb_spec (msb x) (lsb x)); lia.
  - intros y k -> ->.
    destruct (Z.geb_spec (msb x + k) (lsb x + k)),
             (Z.geb_spec (msb x) (lsb x)); lia.
Qed.

(** ** Equality *)

(** X2: against a bit vector node, [__eq__] holds exactly when msb, lsb, the
    signed flag and the big-endian flag all coincide; a difference in any one
    of them makes the nodes unequal. *)
Theorem eq_iff_same_four_fields :
  forall (h : heap) (x y : HdlTypeBitsDef) (r : pyval),
    node as_HdlTypeBitsDef h r = Some y ->
    (__eq__ h x r = true <->
     msb x = msb y /\ lsb x = lsb y /\ signed x = signed y
     /\ is_bigendian x = is_bigendian y).
Proof. intros h x y r Hr. by apply eq_fields. Qed.

(** X3: two bit vectors with the bounds swapped have the same width, yet they
    are not equal unless the bounds coincide: equal width does not make two
    types equal. *)
Theorem swapped_bounds_same_width_not_equal :
  forall (h : heap) (x y : HdlTypeBitsDef) (r : pyval),
    node as_HdlTypeBitsDef h r = Some y ->
    msb y = lsb x -> lsb y = msb x -> msb x <> lsb x ->
    width x = width y /\ __eq__ h x r = false.
Proof.
  intros h x y r Hr Hm Hl Hne. split.
  - unfold width. rewrite Hm, Hl.
    destruct (Z.geb_spec (msb x) (lsb x)), (Z.geb_spec (lsb x) (msb x)); lia.
  - apply not_true_is_false. intros Heq.
    apply (eq_fields h x y r Hr) in Heq as (Hmsb & _). congruence.
Qed.

(** X4: equality is by value, not by identity: two bit vectors constructed
    separately from the same arguments are different objects that compare
    equal in both directions and have the same hash. *)
Theorem separately_constructed_bit_vectors_equal :
  forall (h : heap) (m : Z) (l : option Z) (s : option bool),
  exists r1 r2 h' x y,
    two_bit_vectors m l s h = Ok ((r1, r2), h')
    /\ r1 <> r2
    /\ node as_HdlTypeBitsDef h' r1 = Some x
    /\ node as_HdlTypeBitsDef h' r2 = Some y
    /\ __eq__ h' x r2 = true
    /\ __eq__ h' y r1 = true
    /\ __hash__ x = __hash__ y.
Proof.
  intros h m l s. do 5 eexists.
  unfold two_bit_vectors, HdlTypeBitsDef__init__. run.
  split; [reflexivity|]. split; [intros [= ?]; lia|].
  split; [run; reflexivity|]. split; [run; reflexivity|].
  unfold __eq__, isinstance_HdlTypeBitsDef. run.
  rewrite !Z.eqb_refl, !eqb_reflx. done.
Qed.

(** X5: comparing with a node does not depend on what else is in the heap:
    objects that are allocated later leave the outcome of [__eq__] as it
    was. *)
Theorem eq_stable_under_allocation :
  forall (h new : heap) (x : HdlTypeBitsDef) (a : addr) (o : hobj),
    h !! a = Some o ->
    __eq__ (h ++ new) x (PyRef a) = __eq__ h x (PyRef a).
Proof.
  intros h new x a o Ha.
  unfold __eq__, isinstance_HdlTypeBitsDef, node, deref.
  rewrite lookup_app_l; [done|]. by eapply lookup_lt_Some.
Qed.

(** ** Construction *)

(** X6: whatever arguments it gets, the constructor of a bit vector type
    stores msb, lsb (0 when left out) and signed (false when left out) and
    always gives a node that is not big-endian and has 2 states: neither
    STD_LOGIC_STATES nor WIRE_STATES is ever set by construction. *)
Theorem HdlTypeBitsDef_constructed_two_state :
  forall (m : Z) (l : option Z) (s : option bool) (h : heap),
  exists x : HdlTypeBitsDef,
    HdlTypeBitsDef__init__ m l s h = Ok (x, h)
    /\ msb x = m /\ lsb x = default 0 l /\ signed x = default false s
    /\ is_bigendian x = false
    /\ states x = 2
    /\ states x <> STD_LOGIC_STATES /\ states x <> WIRE_STATES
    /\ width x = Z.abs (m - default 0 l).
Proof.
  intros m l s h. eexists. split; [reflexivity|]. simpl.
  repeat split; try discriminate.
  unfold width. simpl. destruct (Z.geb_spec m (default 0 l)); lia.
Qed.

(** X7: every constructor of the file only adds objects to the heap: the
    objects that exist keep their addresses and contents, and the reference
    it returns is to a new object. *)
Theorem constructors_only_allocate :
  forall h : heap,
    only_allocates (construct OHdlSimpleRange HdlSimpleRange__init__) h
    /\ (forall s r a,
          only_allocates (construct OHdlRange (HdlRange__init__ s r a)) h)
    /\ (forall p c,
          only_allocates (construct OHdlSubtype (HdlSubtype__init__ p c)) h)
    /\ only_allocates (construct OHdlConstraint HdlConstraint__init__) h
    /\ only_allocates (construct OHdlTypeDec HdlTypeDec__init__) h
    /\ (forall m l s,
          only_allocates
            (construct OHdlTypeBitsDef (HdlTypeBitsDef__init__ m l s)) h)
    /\ only_allocates (construct OHdlClassDef HdlClassDef__init__) h
    /\ only_allocates (construct OHdlEnumDef HdlEnumDef__init__) h.
Proof.
  intros h. unfold only_allocates.
  repeat split; intros; do 2 eexists;
    (split;
     [ first [ rewrite HdlConstraint_new | rewrite HdlTypeDec_new
             | rewrite HdlClassDef_new
             | unfold HdlEnumDef__init__; run ];
       reflexivity
     | split;
       [ simpl; apply lookup_ge_None; lia
       | run; eauto ] ]).
Qed.

(** ** Type declarations *)

(** X8: the identifier mapping and the field mapping of a new type
    declaration are two different dicts: a field that is added leaves [ids]
    empty, and an identifier that is bound leaves [fields] empty, so binding
    identifiers alone never gives the node the record shape. *)
Theorem HdlTypeDec_ids_and_fields_apart :
  forall (h : heap) (k : string) (v : pyval),
  exists t h' x,
    construct OHdlTypeDec HdlTypeDec__init__ h = Ok (t, h')
    /\ node as_HdlTypeDec h' t = Some x
    /\ ids x <> fields x
    /\ (exists h'',
          setitem (fields x) k v h' = Ok (tt, h'')
          /\ dict_items h'' (fields x) = Some [(k, v)]
          /\ dict_items h'' (ids x) = Some [])
    /\ (exists h'',
          setitem (ids x) k v h' = Ok (tt, h'')
          /\ dict_items h'' (ids x) = Some [(k, v)]
          /\ dict_items h'' (fields x) = Some []
          /\ record_shape h'' x = false).
Proof.
  intros h k v. do 3 eexists. rewrite HdlTypeDec_new.
  split; [done|]. split; [run; reflexivity|]. simpl.
  split; [intros [= ?]; lia|].
  split; eexists; (split; [run; reflexivity|]); repeat split; run; reflexivity.
Qed.

(** ** Class-like aggregates *)

(** X9: the parent list and the three visibility partitions of a new
    class-like node are four lists of their own: a member appended to one of
    them is in that list only, and the other three stay empty. *)
Theorem HdlClassDef_member_lists_apart :
  forall (h : heap) (p : member_list) (m : pyval),
  exists c h' x h'',
    construct OHdlClassDef HdlClassDef__init__ h = Ok (c, h')
    /\ node as_HdlClassDef h' c = Some x
    /\ add_member c p m h' = Ok (tt, h'')
    /\ node as_HdlClassDef h'' c = Some x
    /\ list_items h'' (member_list_of p x) = Some [m]
    /\ (forall q, q <> p -> list_items h'' (member_list_of q x) = Some []).
Proof.
  intros h p m.
  destruct p; do 4 eexists; rewrite HdlClassDef_new;
    (split; [done|]); (split; [run; reflexivity|]);
    (split; [unfold add_member; run; reflexivity|]);
    (split; [run; reflexivity|]); (split; [run; reflexivity|]);
    intros q Hq; destruct q; try (by destruct Hq); run; reflexivity.
Qed.

(** X10: once a caller assigns the interface flag of a class-like node,
    reading it returns the assigned value; the assignment changes no other
    flag and none of the four lists. *)
Theorem HdlClassDef_is_interface_assigned :
  forall (h : heap) (b : bool),
  exists c h' h'' x,
    construct OHdlClassDef HdlClassDef__init__ h = Ok (c, h')
    /\ setattr as_HdlClassDef OHdlClassDef (assign_is_interface b)
         "is_interface" c h' = Ok (tt, h'')
    /\ getattr_slot as_HdlClassDef is_interface "is_interface" c h''
       = Ok (b, h'')
    /\ node as_HdlClassDef h'' c = Some x
    /\ is_virtual x = false /\ is_static x = false
    /\ is_struct x = false /\ is_union x = false
    /\ (forall p, list_items h'' (member_list_of p x) = Some []).
Proof.
  intros h b. do 4 eexists. rewrite HdlClassDef_new.
  split; [done|]. split; [run; reflexivity|].
  split; [run; reflexivity|]. split; [run; reflexivity|]. simpl.
  repeat split. intros p. destruct p; run; reflexivity.
Qed.

(** ** Subtypes *)

(** X11: a subtype keeps the constraint it was given by reference, not as a
    copy: an index constraint and a field constraint that are added to the
    constraint after the subtype was built are seen through the subtype. *)
Theorem HdlSubtype_shares_its_constraint :
  forall (h : heap) (p i : pyval) (f : string) (v : pyval),
  exists c s h' h'' sx cx,
    constrained_subtype p h = Ok ((c, s), h')
    /\ constrain c i f v h' = Ok (tt, h'')
    /\ node as_HdlSubtype h'' s = Some sx
    /\ parent_type sx = p
    /\ constraint sx = c
    /\ node as_HdlConstraint h'' (constraint sx) = Some cx
    /\ list_items h'' (HdlConstraint_indexes cx) = Some [i]
    /\ dict_items h'' (field_cons cx) = Some [(f, v)].
Proof.
  intros h p i f v. do 6 eexists.
  unfold constrained_subtype, bind at 1. rewrite HdlConstraint_new.
  unfold HdlSubtype__init__. run.
  split; [reflexivity|]. split; [unfold constrain; run; reflexivity|].
  split; [run; reflexivity|]. simpl. split; [done|]. split; [done|].
  split; [run; reflexivity|]. split; run; reflexivity.
Qed.

(** ** Enumerations *)

(** X12: members that are appended to an enum which has members already go
    behind them: the stored sequence is the old one followed by the new one,
    and a member that is appended twice is stored twice. *)
Theorem enum_members_extend_at_the_end :
  forall (vs ws : list pyval) (h : heap),
  exists e h' x h'',
    declare_enum vs h = Ok (e, h')
    /\ node as_HdlEnumDef h' e = Some x
    /\ append_all (values x) ws h' = Ok (tt, h'')
    /\ node as_HdlEnumDef h'' e = Some x
    /\ list_items h'' (values x) = Some (vs ++ ws).
Proof.
  intros vs ws h. do 4 eexists. rewrite declare_enum_run.
  split; [done|]. split; [run; reflexivity|]. simpl.
  split; [apply (append_all_items ws vs); apply lookup_new0|].
  split; run; reflexivity.
Qed.

End Properties.

(** * The properties at concrete inputs *)

#[local] Existing Instance plain_bases.
#[local] Existing Instance first_int_hash.

(** Scenarios A and B: bounds 7 and 0 give width 7 in either order. *)
Lemma width_7_0 :
  width byte_a = width byte_reversed /\ width byte_a = Z.abs (7 - 0).
Proof.
  apply (width_symmetric_abs_diff 7 0 byte_a byte_reversed); reflexivity.
Defined.

Lemma byte_a_eq_byte_b :
  states byte_a <> states byte_b
  /\ HdlTypeBitsDef_name byte_a <> HdlTypeBitsDef_name byte_b
  /\ __eq__ sample_heap byte_a (PyRef 1) = true
  /\ __hash__ byte_a = __hash__ byte_b
  /\ (__eq__ sample_heap byte_reversed (PyRef 1) = true -> 0 = 7).
Proof.
  split; [discriminate|]. split; [discriminate|].
  destruct (eq_and_hash_ignore_states_and_name
              sample_heap byte_a byte_b (PyRef 1) eq_refl) as (_ & Hsame).
  destruct (eq_and_hash_ignore_states_and_name
              sample_heap byte_reversed byte_b (PyRef 1) eq_refl)
    as (Hiff & _).
  split; [by apply Hsame|]. split; [by apply Hsame|].
  intros Heq. apply Hiff in Heq as (Hm & _). exact Hm.
Defined.

Lemma eq_on_sample_heap :
  __eq__ sample_heap byte_a (PyRef 0) = true
  /\ __eq__ sample_heap byte_b (PyRef 0) = true
  /\ __eq__ sample_heap byte_a (PyRef 2) = false
  /\ __eq__ sample_heap byte_a (PyInt 7) = false
  /\ __hash__ byte_a = __hash__ byte_b.
Proof.
  destruct (eq_equivalence_consistent_with_hash sample_heap)
    as (Hrefl & Hsym & _ & Hother & Hhash).
  split; [apply Hrefl; reflexivity|].
  split; [apply (Hsym (PyRef 0) (PyRef 1) byte_a byte_b); reflexivity|].
  split; [apply Hother; reflexivity|].
  split; [apply Hother; reflexivity|].
  apply (Hhash (PyRef 1)); reflexivity.
Defined.

(** A range may be built with none of its alternatives, or with all three. *)
Lemma HdlRange_with_none_and_with_three :
  observe populated_at (construct OHdlRange (HdlRange__init__ None None None)) []
  = Some (Some 0%nat)
  /\ observe populated_at
       (construct OHdlRange
          (HdlRange__init__ (Some (PyStr "natural")) (Some (PyRef 0))
             (Some (PyStr "range")))) []
     = Some (Some 3%nat)
  /\ ~ (forall (s r a : option pyval) (h : heap),
          observe populated_at (construct OHdlRange (HdlRange__init__ s r a)) h
          = Some (Some 1%nat)).
Proof.
  split; [reflexivity|]. split; [reflexivity|].
  intros H. specialize (H None None None []). discriminate H.
Qed.

(** A new type declaration has no shape, and one with a subtype and a
    field has two. *)
Lemma HdlTypeDec_with_no_shape_and_with_two :
  observe shapes_at (construct OHdlTypeDec HdlTypeDec__init__) []
  = Some (Some 0%nat)
  /\ observe shapes_at
       (declare_alias_and_record (PyStr "word") "lo" (PyStr "byte")) []
     = Some (Some 2%nat)
  /\ ~ (forall h : heap,
          observe shapes_at (construct OHdlTypeDec HdlTypeDec__init__) h
          = Some (Some 1%nat)).
Proof.
  split; [reflexivity|]. split; [reflexivity|].
  intros H. specialize (H []). discriminate H.
Qed.

Lemma HdlTypeDec_one_shape_each :
  (exists t h' x,
      declare_alias (PyStr "word") [] = Ok (t, h')
      /\ node as_HdlTypeDec h' t = Some x
      /\ HdlTypeDec_subtype x = PyStr "word"
      /\ shape_flags h' x = (true, false, false))
  /\ (exists t h' x,
        declare_array (PyStr "bit") (PyInt 8) [] = Ok (t, h')
        /\ node as_HdlTypeDec h' t = Some x
        /\ elem_type x = PyStr "bit" /\ HdlTypeDec_indexes x = PyInt 8
        /\ shape_flags h' x = (false, true, false)).
Proof.
  destruct (HdlTypeDec_shapes_as_assigned []) as (_ & Halias & Harray & _).
  split.
  - destruct (Halias (PyStr "word") eq_refl)
      as (t & h' & x & Hrun & Hx & Hs & _ & _ & _ & Hf & _).
    by exists t, h', x.
  - destruct (Harray (PyStr "bit") (PyInt 8) eq_refl eq_refl)
      as (t & h' & x & Hrun & Hx & _ & He & Hi & _ & Hf & _).
    by exists t, h', x.
Defined.

Lemma inconsistent_nodes_are_built :
  observe populated_at
    (construct OHdlRange
       (HdlRange__init__ (Some (PyStr "natural")) (Some (PyRef 0))
          (Some (PyStr "range")))) []
  = Some (Some 3%nat)
  /\ observe shape_flags_at
       (declare_alias_and_record (PyStr "word") "lo" (PyStr "byte")) []
     = Some (Some (true, false, true)).
Proof.
  destruct (constructors_never_raise []) as (_ & _ & _ & Hrange & Hdec).
  split.
  - apply Hrange; reflexivity.
  - apply Hdec. reflexivity.
Defined.

(** With a negative msb the width is not msb - 0. *)
Lemma width_of_negative_msb :
  observe (fun _ x => width x) (HdlTypeBitsDef__init__ (-1) None None) []
  = Some 1
  /\ 1 <> -1 - 0
  /\ ~ (forall (m : Z) (h : heap),
          observe (fun _ x => width x) (HdlTypeBitsDef__init__ m None None) h
          = Some (m - 0)).
Proof.
  split; [reflexivity|]. split; [discriminate|].
  intros H. specialize (H (-1) []). discriminate H.
Qed.

(** Scenario A. *)
Lemma HdlTypeBitsDef_msb_7 :
  exists x : HdlTypeBitsDef,
    HdlTypeBitsDef__init__ 7 None None [] = Ok (x, [])
    /\ lsb x = 0 /\ signed x = false /\ is_bigendian x = false
    /\ states x = 2 /\ width x = 7.
Proof.
  destruct (HdlTypeBitsDef_msb_only 7 [])
    as (x & Hx & _ & Hl & Hs & Hb & Hn & _ & Hw).
  exists x. repeat split; try assumption.
  apply Hw. discriminate.
Defined.

(** ** The further properties at concrete inputs *)

(** Bounds 15 and 8 are the bounds 7 and 0 shifted by 8. *)
Lemma width_15_8 :
  width (@mkHdlTypeBitsDef plain_bases tt None 15 8 false false 2)
  = width byte_a.
Proof.
  destruct (width_nonneg_zero_shift byte_a) as (_ & _ & Hshift).
  apply (Hshift _ 8); reflexivity.
Defined.

Lemma byte_a_eq_byte_b_iff :
  __eq__ sample_heap byte_a (PyRef 1) = true <->
  msb byte_a = msb byte_b /\ lsb byte_a = lsb byte_b
  /\ signed byte_a = signed byte_b
  /\ is_bigendian byte_a = is_bigendian byte_b.
Proof.
  apply (eq_iff_same_four_fields sample_heap byte_a byte_b (PyRef 1)).
  reflexivity.
Defined.

Lemma byte_a_ne_byte_reversed :
  width byte_a = width byte_reversed
  /\ __eq__ [OHdlTypeBitsDef byte_reversed] byte_a (PyRef 0) = false.
Proof.
  apply (swapped_bounds_same_width_not_equal
           [OHdlTypeBitsDef byte_reversed] byte_a byte_reversed (PyRef 0));
    [reflexivity | reflexivity | reflexivity | discriminate].
Defined.

Lemma eq_on_extended_sample_heap :
  __eq__ (sample_heap ++ [OList [PyInt 1]]) byte_a (PyRef 1)
  = __eq__ sample_heap byte_a (PyRef 1).
Proof.
  apply (eq_stable_under_allocation sample_heap [OList [PyInt 1]] byte_a 1%nat
           (OHdlTypeBitsDef byte_b)).
  reflexivity.
Defined.

Lemma public_member_not_private :
  exists c h' x h'',
    construct OHdlClassDef HdlClassDef__init__ [] = Ok (c, h')
    /\ add_member c Public (PyStr "x") h' = Ok (tt, h'')
    /\ list_items h'' (public x) = Some [PyStr "x"]
    /\ list_items h'' (private x) = Some [].
Proof.
  destruct (HdlClassDef_member_lists_apart [] Public (PyStr "x"))
    as (c & h' & x & h'' & Hc & _ & Hadd & _ & Hp & Hq).
  exists c, h', x, h''.
  split; [exact Hc|]. split; [exact Hadd|]. split; [exact Hp|].
  apply (Hq Private). discriminate.
Defined.

